(** * The voice-commanded shopping list page (static/script.js)

    A shallow embedding of the page script: the DOM nodes it touches, the
    module-level [listening] flag, the speech-recognition object, the
    [fetch] calls it issues and the promise callbacks it registers.

    Every handler of the script is a function from page state to page
    state.  A [fetch] appends to the log of requests and records the
    closure that will run when the promise settles; the closure is run
    by the corresponding [..._settled] function, on any later state. *)

From Stdlib Require Import String Ascii List Bool Arith Lia DecimalString.
Import ListNotations.
Open Scope string_scope.

(** ** Markup *)

Module Html.

(** The list entries the script creates: an [li] holding text, or an
    [li] holding a [strong] holding text.  [Raw m] stands for the nodes
    a browser builds from markup [m] that lies outside the fragment
    analysed here. *)
Inductive node : Type :=
| LiText (text : string)
| LiStrong (text : string)
| Raw (markup : string).

(** Characters that stand for themselves in markup and in its
    serialisation: printable ASCII other than [<], [>] and [&]. *)
Definition plain_char (c : ascii) : bool :=
  let n := nat_of_ascii c in
  ((32 <=? n) && (n <=? 126)
   && negb (n =? 60) && negb (n =? 62) && negb (n =? 38))%nat.

Fixpoint plain (s : string) : bool :=
  match s with
  | EmptyString => true
  | String c r => plain_char c && plain r
  end.

(** [strip p s] removes the prefix [p] from [s]. *)
Fixpoint strip (p s : string) : option string :=
  match p with
  | EmptyString => Some s
  | String a p' =>
      match s with
      | EmptyString => None
      | String b s' => if Ascii.eqb a b then strip p' s' else None
      end
  end.

(** Longest prefix of plain characters, and what follows it. *)
Fixpoint span_plain (s : string) : string * string :=
  match s with
  | EmptyString => (EmptyString, EmptyString)
  | String c r =>
      if plain_char c
      then let (t, rest) := span_plain r in (String c t, rest)
      else (EmptyString, s)
  end.

(** One [<li>text</li>] or [<li><strong>text</strong></li>] element
    at the head of [s], and what follows it. *)
Definition parse_item (s : string) : option (node * string) :=
  match strip "<li>" s with
  | None => None
  | Some r =>
      match strip "<strong>" r with
      | Some r1 =>
          let (t, r2) := span_plain r1 in
          match strip "</strong></li>" r2 with
          | Some r3 => Some (LiStrong t, r3)
          | None => None
          end
      | None =>
          let (t, r2) := span_plain r in
          match strip "</li>" r2 with
          | Some r3 => Some (LiText t, r3)
          | None => None
          end
      end
  end.

(** A sequence of such elements; each one uses up a unit of [fuel]. *)
Fixpoint parse_items (fuel : nat) (s : string) : option (list node) :=
  match s with
  | EmptyString => Some []
  | _ =>
      match fuel with
      | O => None
      | S fuel' =>
          match parse_item s with
          | None => None
          | Some (n, rest) => option_map (cons n) (parse_items fuel' rest)
          end
      end
  end.

(** What assigning [m] to [innerHTML] leaves as the element's children. *)
Definition parse (m : string) : list node :=
  match parse_items (String.length m) m with
  | Some ns => ns
  | None => [Raw m]
  end.

(** Text serialisation escapes [&], [<], [>] and U+00A0 (bytes C2 A0). *)
Fixpoint escape (s : string) : string :=
  match s with
  | EmptyString => EmptyString
  | String c r =>
      let n := nat_of_ascii c in
      if (n =? 38)%nat then "&amp;" ++ escape r
      else if (n =? 60)%nat then "&lt;" ++ escape r
      else if (n =? 62)%nat then "&gt;" ++ escape r
      else
        match r with
        | String d r' =>
            if ((n =? 194) && (nat_of_ascii d =? 160))%nat
            then "&nbsp;" ++ escape r'
            else String c (escape r)
        | EmptyString => String c EmptyString
        end
  end.

Definition serialize_node (n : node) : string :=
  match n with
  | LiText t => "<li>" ++ escape t ++ "</li>"
  | LiStrong t => "<li><strong>" ++ escape t ++ "</strong></li>"
  | Raw m => m
  end.

(** What reading [innerHTML] returns. *)
Definition serialize (ns : list node) : string :=
  String.concat EmptyString (map serialize_node ns).

(** Nodes whose text is made of plain characters only. *)
Definition plain_node (n : node) : bool :=
  match n with
  | LiText t | LiStrong t => plain t
  | Raw _ => false
  end.

(** [document.createElement("li")] followed by [li.textContent = t]. *)
Definition li (t : string) : node := LiText t.

End Html.
Import Html.

(** ** Page state *)

(** The body of a POST is [JSON.stringify({ text, lang })]. *)
Inductive request : Type :=
| POST (url : string) (text lang : string)
| GET (url : string).

(** The closures handed to [.then]/[.catch], with the variables they
    capture. *)
Inductive continuation : Type :=
| ThenVoiceCommand (text lang : string)
| ThenSearch (text lang : string)
| ThenList
| ThenSuggestions.

(** What the script does to the world outside the DOM, in order. *)
Inductive effect : Type :=
| Fetch (req : request)
| RecognitionStart
| RecognitionStop
| ConsoleError (label err : string)
| Alert (msg : string)
| Unhandled (err : string).

Record speech_recognition : Type := {
  continuous : bool;
  interimResults : bool;
  lang : string
}.

Record page : Type := {
  statusMessage : string;               (* statusMessage.textContent *)
  startMicButton : string;              (* startMicButton.textContent *)
  startMicDisabled : bool;              (* startMicButton.disabled *)
  languageSelect : string;              (* languageSelect.value *)
  shoppingList : list node;
  suggestionsList : list node;
  searchResults : list node;
  listening : bool;
  recognition : option speech_recognition;
  callbacks : list continuation;
  trace : list effect
}.

Definition set_statusMessage (v : string) (s : page) : page :=
  {| statusMessage := v; startMicButton := startMicButton s;
     startMicDisabled := startMicDisabled s;
     languageSelect := languageSelect s; shoppingList := shoppingList s;
     suggestionsList := suggestionsList s; searchResults := searchResults s;
     listening := listening s; recognition := recognition s;
     callbacks := callbacks s; trace := trace s |}.

Definition set_startMicButton (v : string) (s : page) : page :=
  {| statusMessage := statusMessage s; startMicButton := v;
     startMicDisabled := startMicDisabled s;
     languageSelect := languageSelect s; shoppingList := shoppingList s;
     suggestionsList := suggestionsList s; searchResults := searchResults s;
     listening := listening s; recognition := recognition s;
     callbacks := callbacks s; trace := trace s |}.

Definition set_startMicDisabled (v : bool) (s : page) : page :=
  {| statusMessage := statusMessage s; startMicButton := startMicButton s;
     startMicDisabled := v;
     languageSelect := languageSelect s; shoppingList := shoppingList s;
     suggestionsList := suggestionsList s; searchResults := searchResults s;
     listening := listening s; recognition := recognition s;
     callbacks := callbacks s; trace := trace s |}.

Definition set_languageSelect (v : string) (s : page) : page :=
  {| statusMessage := statusMessage s; startMicButton := startMicButton s;
     startMicDisabled := startMicDisabled s;
     languageSelect := v; shoppingList := shoppingList s;
     suggestionsList := suggestionsList s; searchResults := searchResults s;
     listening := listening s; recognition := recognition s;
     callbacks := callbacks s; trace := trace s |}.

Definition set_shoppingList (v : list node) (s : page) : page :=
  {| statusMessage := statusMessage s; startMicButton := startMicButton s;
     startMicDisabled := startMicDisabled s;
     languageSelect := languageSelect s; shoppingList := v;
     suggestionsList := suggestionsList s; searchResults := searchResults s;
     listening := listening s; recognition := recognition s;
     callbacks := callbacks s; trace := trace s |}.

Definition set_suggestionsList (v : list node) (s : page) : page :=
  {| statusMessage := statusMessage s; startMicButton := startMicButton s;
     startMicDisabled := startMicDisabled s;
     languageSelect := languageSelect s; shoppingList := shoppingList s;
     suggestionsList := v; searchResults := searchResults s;
     listening := listening s; recognition := recognition s;
     callbacks := callbacks s; trace := trace s |}.

Definition set_searchResults (v : list node) (s : page) : page :=
  {| statusMessage := statusMessage s; startMicButton := startMicButton s;
     startMicDisabled := startMicDisabled s;
     languageSelect := languageSelect s; shoppingList := shoppingList s;
     suggestionsList := suggestionsList s; searchResults := v;
     listening := listening s; recognition := recognition s;
     callbacks := callbacks s; trace := trace s |}.

Definition set_listening (v : bool) (s : page) : page :=
  {| statusMessage := statusMessage s; startMicButton := startMicButton s;
     startMicDisabled := startMicDisabled s;
     languageSelect := languageSelect s; shoppingList := shoppingList s;
     suggestionsList := suggestionsList s; searchResults := searchResults s;
     listening := v; recognition := recognition s;
     callbacks := callbacks s; trace := trace s |}.

Definition set_recognition (v : option speech_recognition) (s : page) : page :=
  {| statusMessage := statusMessage s; startMicButton := startMicButton s;
     startMicDisabled := startMicDisabled s;
     languageSelect := languageSelect s; shoppingList := shoppingList s;
     suggestionsList := suggestionsList s; searchResults := searchResults s;
     listening := listening s; recognition := v;
     callbacks := callbacks s; trace := trace s |}.

Definition set_callbacks (v : list continuation) (s : page) : page :=
  {| statusMessage := statusMessage s; startMicButton := startMicButton s;
     startMicDisabled := startMicDisabled s;
     languageSelect := languageSelect s; shoppingList := shoppingList s;
     suggestionsList := suggestionsList s; searchResults := searchResults s;
     listening := listening s; recognition := recognition s;
     callbacks := v; trace := trace s |}.

Definition set_trace (v : list effect) (s : page) : page :=
  {| statusMessage := statusMessage s; startMicButton := startMicButton s;
     startMicDisabled := startMicDisabled s;
     languageSelect := languageSelect s; shoppingList := shoppingList s;
     suggestionsList := suggestionsList s; searchResults := searchResults s;
     listening := listening s; recognition := recognition s;
     callbacks := callbacks s; trace := v |}.

(** Statements of a handler body run left to right. *)
Notation "s '|>' f" := (f s) (at level 49, left associativity, only parsing).

Definition emit (e : effect) (s : page) : page :=
  set_trace (trace s ++ [e]) s.

(** [fetch(...).then(...)]: the request leaves, the closure waits. *)
Definition fetch (req : request) (k : continuation) (s : page) : page :=
  s |> emit (Fetch req) |> set_callbacks (callbacks s ++ [k]).

(** How a [fetch(...).then(res => res.json())] chain settles: with the
    parsed body, or rejected by the network or by the JSON parser. *)
Inductive settled (A : Type) : Type :=
| Json (data : A)
| NetworkError (err : string)
| ParseError (err : string).
Arguments Json {A} data.
Arguments NetworkError {A} err.
Arguments ParseError {A} err.

Definition forEach {A : Type} (xs : list A) (f : A -> page -> page)
  (s : page) : page :=
  fold_left (fun acc x => f x acc) xs s.

Definition dquote : string := String (ascii_of_nat 34) EmptyString.

Definition decimal (n : nat) : string :=
  NilEmpty.string_of_uint (Nat.to_uint n).

(** A non-empty string is truthy. *)
Definition truthy (s : string) : bool :=
  match s with EmptyString => false | String _ _ => true end.

(** ** A concrete instance of the numbers

    For evaluating the script on concrete responses: a number is an
    amount held as a count of hundredths (below 10^15), for which
    [toFixed(2)] prints both decimals ([12 -> "0.12"], [150 -> "1.50"])
    and the template literal prints the shortest decimal
    ([200 -> "2"], [250 -> "2.5"], [205 -> "2.05"]).  [trim] removes the
    ASCII white space and line terminators (tab, LF, VT, FF, CR, space)
    at both ends, for transcripts that carry no other kind. *)

Module Sample.

Definition number : Type := nat.

Definition two_digits (n : nat) : string :=
  if (n <? 10)%nat then "0" ++ decimal n else decimal n.

Definition toFixed2 (n : number) : string :=
  decimal (n / 100) ++ "." ++ two_digits (n mod 100).

Definition numberToString (n : number) : string :=
  let cents := n mod 100 in
  if (cents =? 0)%nat then decimal (n / 100)
  else if (cents mod 10 =? 0)%nat
       then decimal (n / 100) ++ "." ++ decimal (cents / 10)
       else decimal (n / 100) ++ "." ++ two_digits cents.

Definition is_space (c : ascii) : bool :=
  let n := nat_of_ascii c in
  ((n =? 32) || ((9 <=? n) && (n <=? 13)))%nat.

Fixpoint trim_start (s : string) : string :=
  match s with
  | EmptyString => EmptyString
  | String c r => if is_space c then trim_start r else s
  end.

Fixpoint trim_end (s : string) : string :=
  match s with
  | EmptyString => EmptyString
  | String c r =>
      match trim_end r with
      | EmptyString => if is_space c then EmptyString else String c EmptyString
      | r' => String c r'
      end
  end.

Definition trim (s : string) : string := trim_end (trim_start s).

End Sample.

(** ** The script *)

Section Script.

(** JavaScript numbers and the two conversions the script applies to
    them, and [String.prototype.trim], are taken as given. *)
Variable number : Type.
Variable toFixed2 : number -> string.          (* n.toFixed(2) *)
Variable numberToString : number -> string.    (* `${n}` *)
Variable trim : string -> string.

(** *** Response bodies, as the four endpoints answer *)

Inductive quantity : Type :=
| QString (s : string)
| QNumber (n : number).

Record ShoppingItem : Type := {
  item_name : string;
  item_quantity : quantity
}.

Record SearchResult : Type := {
  product_name : string;
  product_brand : string;
  product_price : number
}.

Record CommandResult : Type := {
  cmd_status : string;
  cmd_message : string;
  substitute_suggestions : option (list string)
}.

Record SearchResponse : Type := {
  search_status : string;
  found_items : list SearchResult
}.

Record Suggestions : Type := {
  seasonal_suggestions : list string;
  frequently_bought : list string
}.

Definition quantityToString (q : quantity) : string :=
  match q with
  | QString s => s
  | QNumber n => numberToString n
  end.

(** The template literals [`${item.name} (${item.quantity})`] and
    [`${product.name} (${product.brand}) - $${product.price.toFixed(2)}`]. *)
Definition item_line (item : ShoppingItem) : string :=
  item_name item ++ " (" ++ quantityToString (item_quantity item) ++ ")".

Definition product_line (product : SearchResult) : string :=
  product_name product ++ " (" ++ product_brand product ++ ") - $"
  ++ toFixed2 (product_price product).

(** *** Recognition callbacks *)

Definition onstart (s : page) : page :=
  s |> set_statusMessage "🎙️ Listening..."
    |> set_startMicButton "🛑 Stop"
    |> set_listening true.

Definition onend (s : page) : page :=
  s |> set_statusMessage "⏳ Processing..."
    |> set_startMicButton "🎤 Start Listening"
    |> set_listening false.

Definition onerror (error : string) (s : page) : page :=
  s |> set_statusMessage ("⚠️ Error: " ++ error)
    |> set_listening false.

(** *** Renderers *)

Definition updateSuggestions (items : list string) (heading : string)
  (s : page) : page :=
  let s1 :=
    s |> set_suggestionsList
           (parse (if truthy heading
                   then "<li><strong>" ++ heading ++ "</strong></li>"
                   else EmptyString)) in
  if (List.length items =? 0)%nat
  then s1 |> set_suggestionsList
               (parse (serialize (suggestionsList s1)
                       ++ "<li>No suggestions available.</li>"))
  else forEach items
         (fun item acc =>
            acc |> set_suggestionsList (suggestionsList acc ++ [li item]))
         s1.

Definition updateSearchResults (results : list SearchResult)
  (s : page) : page :=
  forEach results
    (fun product acc =>
       acc |> set_searchResults
                (searchResults acc ++ [li (product_line product)]))
    (s |> set_searchResults (parse EmptyString)).

(** *** Requests *)

Definition refreshShoppingList (s : page) : page :=
  fetch (GET "/list") ThenList s.

Definition loadSuggestions (s : page) : page :=
  fetch (GET "/suggestions") ThenSuggestions s.

Definition searchProducts (text lang : string) (s : page) : page :=
  fetch (POST "/search" text lang) (ThenSearch text lang) s.

Definition processVoiceCommand (text : string) (s : page) : page :=
  let lang := languageSelect s in
  fetch (POST "/voice-command" text lang) (ThenVoiceCommand text lang) s.

Definition onresult (heard : string) (s : page) : page :=
  let transcript := trim heard in
  s |> set_statusMessage ("📥 Heard: " ++ dquote ++ transcript ++ dquote)
    |> processVoiceCommand transcript.

(** *** Promise callbacks *)

Definition voice_command_settled (text lang : string)
  (r : settled CommandResult) (s : page) : page :=
  match r with
  | Json data =>
      if cmd_status data =? "success"
      then
        let s1 := s |> set_statusMessage ("✅ " ++ cmd_message data) in
        let s2 :=
          match substitute_suggestions data with
          | Some subs => updateSuggestions subs "Suggested substitutes:" s1
          | None => s1
          end in
        refreshShoppingList s2
      else
        s |> set_statusMessage "🤔 Trying search instead..."
          |> searchProducts text lang
  | NetworkError err | ParseError err =>
      s |> emit (ConsoleError "Error handling command:" err)
        |> set_statusMessage "❌ Failed to process voice command."
  end.

Definition search_settled (text lang : string)
  (r : settled SearchResponse) (s : page) : page :=
  match r with
  | Json data =>
      if (search_status data =? "success")
         && (0 <? List.length (found_items data))%nat
      then
        s |> updateSearchResults (found_items data)
          |> set_statusMessage
               ("🔎 Found " ++ decimal (List.length (found_items data))
                ++ " result(s).")
      else
        s |> set_searchResults (parse "<li>No results found.</li>")
          |> set_statusMessage
               ("❌ Nothing found for: " ++ dquote ++ text ++ dquote)
  | NetworkError err | ParseError err =>
      s |> emit (ConsoleError "Search error:" err)
        |> set_statusMessage "❌ Search failed."
  end.

(** The chain of [refreshShoppingList] ends without a [.catch]: a
    rejection reaches no handler of the script. *)
Definition list_settled (r : settled (list ShoppingItem))
  (s : page) : page :=
  match r with
  | Json items =>
      let s1 := s |> set_shoppingList (parse EmptyString) in
      if (List.length items =? 0)%nat
      then s1 |> set_shoppingList (parse "<li>No items yet.</li>")
      else forEach items
             (fun item acc =>
                acc |> set_shoppingList
                     (shoppingList acc ++ [li (item_line item)]))
             s1
  | NetworkError err | ParseError err => s |> emit (Unhandled err)
  end.

Definition suggestions_settled (r : settled Suggestions)
  (s : page) : page :=
  match r with
  | Json data =>
      let allSuggestions :=
        (seasonal_suggestions data ++ frequently_bought data)%list in
      updateSuggestions allSuggestions "Smart Suggestions:" s
  | NetworkError err | ParseError err => s |> emit (Unhandled err)
  end.

(** The body each kind of closure expects, and running a closure. *)
Definition payload (k : continuation) : Type :=
  match k with
  | ThenVoiceCommand _ _ => CommandResult
  | ThenSearch _ _ => SearchResponse
  | ThenList => list ShoppingItem
  | ThenSuggestions => Suggestions
  end.

Definition resume (k : continuation)
  : settled (payload k) -> page -> page :=
  match k with
  | ThenVoiceCommand text lang => voice_command_settled text lang
  | ThenSearch text lang => search_settled text lang
  | ThenList => list_settled
  | ThenSuggestions => suggestions_settled
  end.

(** *** The mic button *)

Definition click (s : page) : page :=
  match recognition s with
  | None => s |> emit (Unhandled "TypeError")
  | Some r =>
      if listening s
      then s |> emit RecognitionStop
      else
        s |> set_recognition
               (Some {| continuous := continuous r;
                        interimResults := interimResults r;
                        lang := if languageSelect s =? "es"
                                then "es-ES" else "en-US" |})
          |> emit RecognitionStart
  end.

(** *** Top level of the script

    [supported] is the test for a speech-recognition constructor on
    [window], [fresh] the object that constructor returns, [s] the
    document as loaded. *)
Definition boot (supported : bool) (fresh : speech_recognition)
  (s : page) : page :=
  let s1 :=
    if supported
    then s |> set_listening false
           |> set_recognition
                (Some {| continuous := false;
                         interimResults := false;
                         lang := lang fresh |})
    else s |> set_listening false
           |> set_recognition None
           |> emit (Alert "Speech Recognition not supported. Use Chrome or Edge.")
           |> set_startMicDisabled true in
  s1 |> refreshShoppingList |> loadSuggestions.

(** *** The event loop

    What can happen to the page once the script has run: the user
    clicks the mic button or picks a language, the recognition engine
    calls one of its four callbacks, a [fetch] chain settles. *)
Inductive event : Type :=
| Click
| LanguageChange (value : string)
| OnStart
| OnEnd
| OnError (error : string)
| OnResult (heard : string)
| Settle (k : continuation) (r : settled (payload k)).

Definition handle (e : event) (s : page) : page :=
  match e with
  | Click => click s
  | LanguageChange value => set_languageSelect value s
  | OnStart => onstart s
  | OnEnd => onend s
  | OnError error => onerror error s
  | OnResult heard => onresult heard s
  | Settle k r => resume k r s
  end.

Definition run (events : list event) (s : page) : page :=
  fold_left (fun acc e => handle e acc) events s.

(** Events other than the settling of a [fetch] chain. *)
Definition is_settle (e : event) : bool :=
  match e with
  | Settle _ _ => true
  | _ => false
  end.

(** The recognition object exists, is set for single final results, and
    its locale is the constructor's default [lang0] or one of the two
    tags the click handler assigns. *)
Definition configured (lang0 : string) (s : page) : Prop :=
  exists r,
    recognition s = Some r
    /\ continuous r = false /\ interimResults r = false
    /\ (lang r = lang0 \/ lang r = "en-US" \/ lang r = "es-ES").

(** The effects a handler may have once the script has loaded: the two
    POSTs, the GET of the list, starting and stopping recognition,
    console lines and unhandled errors; no alert and no other request. *)
Definition later_effect (e : effect) : bool :=
  match e with
  | Fetch (GET url) => url =? "/list"
  | Fetch (POST url _ _) => (url =? "/voice-command") || (url =? "/search")
  | Alert _ => false
  | RecognitionStart | RecognitionStop
  | ConsoleError _ _ | Unhandled _ => true
  end.

(** A chain rejected by the network ([fetch] fails) or by the JSON parser
    ([res.json()] fails). *)
Definition rejected {A : Type} (by_parser : bool) (err : string) : settled A :=
  if by_parser then ParseError err else NetworkError err.

(** How many times [recognition.start()] was called. *)
Definition recognition_starts (t : list effect) : nat :=
  List.length
    (filter (fun e => match e with RecognitionStart => true | _ => false end)
       t).

(** The requests among the effects. *)
Definition fetches (t : list effect) : list request :=
  flat_map (fun e => match e with Fetch req => [req] | _ => [] end) t.

End Script.

Arguments QString {number} s.
Arguments QNumber {number} n.
Arguments item_name {number} _.
Arguments item_quantity {number} _.
Arguments product_name {number} _.
Arguments product_brand {number} _.
Arguments product_price {number} _.
Arguments search_status {number} _.
Arguments found_items {number} _.
Arguments quantityToString {number} numberToString q.
Arguments item_line {number} numberToString item.
Arguments product_line {number} toFixed2 product.
Arguments updateSearchResults {number} toFixed2 results s.
Arguments search_settled {number} toFixed2 text lang r s.
Arguments list_settled {number} numberToString r s.
Arguments resume {number} toFixed2 numberToString k _ _.
Arguments Click {number}.
Arguments LanguageChange {number} value.
Arguments OnStart {number}.
Arguments OnEnd {number}.
Arguments OnError {number} error.
Arguments OnResult {number} heard.
Arguments Settle {number} k r.
Arguments handle {number} toFixed2 numberToString trim e s.
Arguments run {number} toFixed2 numberToString trim events s.
Arguments is_settle {number} e.

(** ** Concrete inputs *)

Module Inputs.

Import Sample.

(** A page as it may stand some time after loading. *)
Definition page0 : page :=
  {| statusMessage := "idle";
     startMicButton := "🎤 Start Listening";
     startMicDisabled := false;
     languageSelect := "en";
     shoppingList := [LiText "eggs (12)"];
     suggestionsList := [LiStrong "Smart Suggestions:"; LiText "mango"];
     searchResults := [LiText "old result"];
     listening := false;
     recognition :=
       Some {| continuous := false; interimResults := false;
               lang := EmptyString |};
     callbacks := [];
     trace := [] |}.

Definition milk : SearchResult number :=
  {| product_name := "Milk"; product_brand := "Amul"; product_price := 150 |}.

Definition bread : ShoppingItem number :=
  {| item_name := "bread"; item_quantity := QNumber 200 |}.

Definition juice : ShoppingItem number :=
  {| item_name := "juice"; item_quantity := QNumber 250 |}.

Definition apples : ShoppingItem number :=
  {| item_name := "apples"; item_quantity := QString "1 kg" |}.

(** A search answer that carries a hit but does not report success. *)
Definition unsuccessful_hit : SearchResponse number :=
  {| search_status := "error"; found_items := [milk] |}.

Definition successful_hit : SearchResponse number :=
  {| search_status := "success"; found_items := [milk] |}.

Definition nothing_found : SearchResponse number :=
  {| search_status := "success"; found_items := [] |}.

(** The page after the user switched the language control to Spanish. *)
Definition page_es : page := set_languageSelect "es" page0.

Definition added_milk : CommandResult :=
  {| cmd_status := "success"; cmd_message := "Added milk";
     substitute_suggestions := None |}.

Definition not_a_command : CommandResult :=
  {| cmd_status := "error"; cmd_message := "Could not understand";
     substitute_suggestions := None |}.

End Inputs.

(** ** Properties of the markup fragment *)

Section Markup.

Local Open Scope string_scope.

Lemma string_app_nil_r (s : string) : s ++ EmptyString = s.
Proof.
  induction s as [|c s IH]; simpl; [reflexivity | now rewrite IH].
Qed.

Lemma string_app_assoc (a b c : string) : (a ++ b) ++ c = a ++ b ++ c.
Proof.
  induction a as [|x a IH]; simpl; [reflexivity | now rewrite IH].
Qed.

Lemma string_length_app (a b : string) :
  String.length (a ++ b) = String.length a + String.length b.
Proof.
  induction a as [|x a IH]; simpl; [reflexivity | now rewrite IH].
Qed.

Lemma plain_char_bounds (c : ascii) :
  plain_char c = true ->
  nat_of_ascii c <> 38 /\ nat_of_ascii c <> 60 /\ nat_of_ascii c <> 62
  /\ nat_of_ascii c <= 126.
Proof.
  unfold plain_char; intros H.
  repeat (apply andb_prop in H; destruct H as [H ?]).
  repeat match goal with
         | E : negb _ = true |- _ =>
             apply negb_true_iff, Nat.eqb_neq in E
         | E : (_ <=? _)%nat = true |- _ => apply Nat.leb_le in E
         end.
  repeat split; assumption.
Qed.

Lemma escape_plain (t : string) : plain t = true -> escape t = t.
Proof.
  induction t as [|c r IH]; [reflexivity|].
  intros H; simpl in H. apply andb_prop in H. destruct H as [Hc Hr].
  destruct (plain_char_bounds c Hc) as (H38 & H60 & H62 & Hle).
  specialize (IH Hr).
  cbn [escape]. cbv zeta.
  apply Nat.eqb_neq in H38, H60, H62. rewrite H38, H60, H62.
  destruct r as [|d r'].
  - reflexivity.
  - assert (E : (nat_of_ascii c =? 194)%nat = false)
      by (apply Nat.eqb_neq; lia).
    rewrite E. cbn [andb]. now rewrite IH.
Qed.

Lemma span_plain_stop (t : string) (c : ascii) (rest : string) :
  plain t = true -> plain_char c = false ->
  span_plain (t ++ String c rest) = (t, String c rest).
Proof.
  intros Ht Hc. induction t as [|x t IH]; simpl.
  - now rewrite Hc.
  - simpl in Ht. apply andb_prop in Ht. destruct Ht as [Hx Ht].
    rewrite Hx, (IH Ht). reflexivity.
Qed.

Lemma strip_strong_plain (t rest : string) :
  plain t = true -> strip "<strong>" (t ++ "</li>" ++ rest) = None.
Proof.
  destruct t as [|x t]; [reflexivity|].
  intros H; simpl in H. apply andb_prop in H. destruct H as [Hx _].
  destruct (Ascii.eqb "<"%char x) eqn:E.
  - apply Ascii.eqb_eq in E. subst x. discriminate Hx.
  - cbn [append strip]. now rewrite E.
Qed.

Lemma strip_app (p s : string) : strip p (p ++ s) = Some s.
Proof.
  induction p as [|a p IH]; simpl; [reflexivity|].
  now rewrite Ascii.eqb_refl.
Qed.

Lemma parse_item_strong (t rest : string) :
  plain t = true ->
  parse_item ("<li><strong>" ++ t ++ "</strong></li>" ++ rest)
  = Some (LiStrong t, rest).
Proof.
  intros Ht. unfold parse_item.
  change ("<li><strong>" ++ ?x) with ("<li>" ++ "<strong>" ++ x).
  rewrite !strip_app.
  change ("</strong></li>" ++ rest)
    with (String "<" ("/strong></li>" ++ rest)).
  rewrite (span_plain_stop t "<"%char _ Ht eq_refl).
  change (String "<" ("/strong></li>" ++ rest))
    with ("</strong></li>" ++ rest).
  now rewrite strip_app.
Qed.

Lemma parse_item_text (t rest : string) :
  plain t = true ->
  parse_item ("<li>" ++ t ++ "</li>" ++ rest) = Some (LiText t, rest).
Proof.
  intros Ht. unfold parse_item.
  rewrite strip_app, (strip_strong_plain t rest Ht).
  change ("</li>" ++ rest) with (String "<" ("/li>" ++ rest)).
  rewrite (span_plain_stop t "<"%char _ Ht eq_refl).
  change (String "<" ("/li>" ++ rest)) with ("</li>" ++ rest).
  now rewrite strip_app.
Qed.

Lemma parse_items_step (fuel : nat) (s : string) :
  s <> EmptyString ->
  parse_items (S fuel) s
  = match parse_item s with
    | None => None
    | Some (n, rest) => option_map (cons n) (parse_items fuel rest)
    end.
Proof.
  destruct s; [congruence | reflexivity].
Qed.

Lemma serialize_cons (n : node) (ns : list node) :
  serialize (n :: ns) = serialize_node n ++ serialize ns.
Proof.
  unfold serialize. destruct ns as [|m ns]; cbn [map String.concat].
  - now rewrite string_app_nil_r.
  - reflexivity.
Qed.

Lemma parse_item_node (n : node) (rest : string) :
  plain_node n = true ->
  parse_item (serialize_node n ++ rest) = Some (n, rest).
Proof.
  destruct n as [t|t|m]; cbn [plain_node serialize_node]; intros Hn.
  - rewrite (escape_plain t Hn), !string_app_assoc.
    now apply parse_item_text.
  - rewrite (escape_plain t Hn), !string_app_assoc.
    now apply parse_item_strong.
  - discriminate Hn.
Qed.

Lemma serialize_node_nonempty (n : node) (rest : string) :
  plain_node n = true -> serialize_node n ++ rest <> EmptyString.
Proof.
  destruct n; cbn [plain_node serialize_node]; intros Hn;
    [discriminate | discriminate | discriminate Hn].
Qed.

Lemma parse_items_serialize (ns : list node) :
  forall fuel,
    forallb plain_node ns = true ->
    List.length ns <= fuel ->
    parse_items fuel (serialize ns) = Some ns.
Proof.
  induction ns as [|n ns IH]; intros fuel Hp Hf.
  - destruct fuel; reflexivity.
  - simpl in Hp. apply andb_prop in Hp. destruct Hp as [Hn Hns].
    destruct fuel as [|fuel]; [simpl in Hf; lia|].
    rewrite serialize_cons.
    rewrite parse_items_step by now apply serialize_node_nonempty.
    rewrite (parse_item_node n _ Hn).
    rewrite IH by (simpl in Hf; auto with arith).
    reflexivity.
Qed.

Lemma serialize_length (ns : list node) :
  forallb plain_node ns = true ->
  List.length ns <= String.length (serialize ns).
Proof.
  induction ns as [|n ns IH]; intros Hp; [apply Nat.le_0_l|].
  simpl in Hp. apply andb_prop in Hp. destruct Hp as [Hn Hns].
  rewrite serialize_cons, string_length_app. specialize (IH Hns).
  assert (1 <= String.length (serialize_node n)).
  { destruct n; cbn [serialize_node append String.length];
      [auto with arith | auto with arith | discriminate Hn]. }
  simpl List.length. lia.
Qed.

(** Markup read back from plain nodes parses to the same nodes. *)
Lemma parse_serialize (ns : list node) :
  forallb plain_node ns = true -> parse (serialize ns) = ns.
Proof.
  intros Hp. unfold parse.
  now rewrite (parse_items_serialize ns _ Hp (serialize_length ns Hp)).
Qed.

Lemma parse_heading (heading : string) :
  plain heading = true ->
  parse ("<li><strong>" ++ heading ++ "</strong></li>")
  = [LiStrong heading].
Proof.
  intros Hh.
  assert (P := parse_serialize [LiStrong heading]).
  cbn [forallb plain_node andb] in P. rewrite Hh in P.
  unfold serialize in P. cbn [map String.concat serialize_node] in P.
  rewrite (escape_plain heading Hh) in P. exact (P eq_refl).
Qed.

Lemma parse_heading_then (heading placeholder : string) :
  plain heading = true -> plain placeholder = true ->
  parse (serialize [LiStrong heading]
         ++ "<li>" ++ placeholder ++ "</li>")
  = [LiStrong heading; LiText placeholder].
Proof.
  intros Hh Hp.
  assert (P := parse_serialize [LiStrong heading; LiText placeholder]).
  cbn [forallb plain_node andb] in P. rewrite Hh, Hp in P.
  rewrite !serialize_cons in P.
  change (serialize []) with EmptyString in P.
  rewrite string_app_nil_r in P. cbn [serialize_node] in P.
  rewrite (escape_plain placeholder Hp) in P.
  unfold serialize. cbn [map String.concat serialize_node].
  exact (P eq_refl).
Qed.

End Markup.

(** ** Properties of the renderers *)

Section Rendering.

Variable number : Type.
Variable toFixed2 : number -> string.
Variable numberToString : number -> string.

(** [forEach] with [appendChild] adds one entry per element, in order. *)
Ltac forEach_append items :=
  let s := fresh "s" in
  let IH := fresh "IH" in
  intros s; revert s; unfold forEach;
  induction items as [|? items IH]; intros s;
  [ destruct s; cbn; now rewrite app_nil_r
  | cbn [fold_left]; rewrite IH; cbn; now rewrite <- app_assoc ].

Lemma forEach_shoppingList {A : Type} (f : A -> node) (items : list A) :
  forall s,
    forEach items
      (fun item acc => set_shoppingList (shoppingList acc ++ [f item]) acc) s
    = set_shoppingList (shoppingList s ++ map f items) s.
Proof. forEach_append items. Qed.

Lemma forEach_suggestionsList {A : Type} (f : A -> node) (items : list A) :
  forall s,
    forEach items
      (fun item acc =>
         set_suggestionsList (suggestionsList acc ++ [f item]) acc) s
    = set_suggestionsList (suggestionsList s ++ map f items) s.
Proof. forEach_append items. Qed.

Lemma forEach_searchResults {A : Type} (f : A -> node) (items : list A) :
  forall s,
    forEach items
      (fun item acc => set_searchResults (searchResults acc ++ [f item]) acc) s
    = set_searchResults (searchResults s ++ map f items) s.
Proof. forEach_append items. Qed.

(** What each renderer leaves in its container. *)

Lemma list_settled_json (items : list (ShoppingItem number)) (s : page) :
  list_settled numberToString (Json items) s
  = set_shoppingList
      match items with
      | [] => [LiText "No items yet."]
      | _ :: _ => map (fun item => LiText (item_line numberToString item)) items
      end s.
Proof.
  unfold list_settled. destruct items as [|item items].
  - reflexivity.
  - cbn [List.length Nat.eqb].
    now rewrite (forEach_shoppingList
                   (fun item => li (item_line numberToString item))).
Qed.

Lemma updateSearchResults_entries (results : list (SearchResult number))
  (s : page) :
  updateSearchResults toFixed2 results s
  = set_searchResults
      (map (fun product => LiText (product_line toFixed2 product)) results) s.
Proof.
  unfold updateSearchResults.
  now rewrite (forEach_searchResults
                 (fun product => li (product_line toFixed2 product))).
Qed.

Lemma updateSuggestions_entries (items : list string) (heading : string)
  (s : page) :
  plain heading = true ->
  updateSuggestions items heading s
  = set_suggestionsList
      ((if truthy heading then [LiStrong heading] else [])
       ++ match items with
          | [] => [LiText "No suggestions available."]
          | _ :: _ => map LiText items
          end) s.
Proof.
  intros Hh. unfold updateSuggestions.
  destruct heading as [|c heading]; cbn [truthy].
  - destruct items as [|item items].
    + reflexivity.
    + cbn [List.length Nat.eqb].
      now rewrite (forEach_suggestionsList li).
  - rewrite (parse_heading _ Hh).
    destruct items as [|item items].
    + cbn [List.length Nat.eqb suggestionsList set_suggestionsList].
      change "<li>No suggestions available.</li>"
        with ("<li>" ++ "No suggestions available." ++ "</li>").
      now rewrite (parse_heading_then _ "No suggestions available." Hh eq_refl).
    + cbn [List.length Nat.eqb].
      now rewrite (forEach_suggestionsList li).
Qed.

Lemma search_settled_json (text lang : string)
  (data : SearchResponse number) (s : page) :
  search_settled toFixed2 text lang (Json data) s
  = if (search_status data =? "success")
       && negb (Nat.eqb (List.length (found_items data)) 0)
    then
      s |> set_searchResults
             (map (fun product => LiText (product_line toFixed2 product))
                (found_items data))
        |> set_statusMessage
             ("🔎 Found " ++ decimal (List.length (found_items data))
              ++ " result(s).")
    else
      s |> set_searchResults [LiText "No results found."]
        |> set_statusMessage
             ("❌ Nothing found for: " ++ dquote ++ text ++ dquote).
Proof.
  unfold search_settled.
  destruct (search_status data =? "success"); cbn [andb]; [|reflexivity].
  destruct (found_items data) as [|product results] eqn:E.
  - reflexivity.
  - cbn [List.length Nat.ltb Nat.leb Nat.eqb negb].
    now rewrite updateSearchResults_entries.
Qed.

(** Failures of the command and search requests end in their [.catch]:
    a console line and a fixed status text, the three lists untouched. *)
Lemma command_failure_caught (text lang err : string) (s : page) :
  let caught :=
    s |> emit (ConsoleError "Error handling command:" err)
      |> set_statusMessage "❌ Failed to process voice command." in
  voice_command_settled text lang (NetworkError err) s = caught
  /\ voice_command_settled text lang (ParseError err) s = caught
  /\ shoppingList caught = shoppingList s
  /\ suggestionsList caught = suggestionsList s.
Proof. repeat split. Qed.

Lemma search_failure_caught (text lang err : string) (s : page) :
  let caught :=
    s |> emit (ConsoleError "Search error:" err)
      |> set_statusMessage "❌ Search failed." in
  search_settled toFixed2 text lang (NetworkError err) s = caught
  /\ search_settled toFixed2 text lang (ParseError err) s = caught
  /\ shoppingList caught = shoppingList s
  /\ suggestionsList caught = suggestionsList s.
Proof. repeat split. Qed.

(** ** The claims *)

(** C1 (amended): for every /search response whose status is "success"
    and whose [found_items] is nonempty, the search-results container
    holds exactly one entry per result, in order; when [found_items] is
    empty, and also when the status is not "success", it holds exactly
    one entry, the literal "No results found.". *)
Theorem search_response_rendering (text lang : string)
  (data : SearchResponse number) (s : page) :
  let s' := search_settled toFixed2 text lang (Json data) s in
  (search_status data = "success" -> found_items data <> [] ->
   searchResults s'
   = map (fun product => LiText (product_line toFixed2 product))
       (found_items data))
  /\ (found_items data = [] ->
      searchResults s' = [LiText "No results found."])
  /\ (search_status data <> "success" ->
      searchResults s' = [LiText "No results found."]).
Proof.
  cbv zeta. rewrite search_settled_json. repeat split.
  - intros Hs Hne. apply String.eqb_eq in Hs. rewrite Hs.
    destruct (found_items data); [congruence | reflexivity].
  - intros ->. now rewrite andb_false_r.
  - intros Hs. apply String.eqb_neq in Hs. now rewrite Hs.
Qed.

(** C2: when the answer to /voice-command does not have status
    "success", the closure registered by [processVoiceCommand] issues a
    POST to /search whose text and lang are those sent to
    /voice-command, whatever happened to the page in between. *)
Theorem nonmatch_forwards_same_text_and_lang (text : string)
  (data : CommandResult) (s later : page) :
  cmd_status data <> "success" ->
  let lang := languageSelect s in
  let s1 := processVoiceCommand text s in
  trace s1 = (trace s ++ [Fetch (POST "/voice-command" text lang)])%list
  /\ callbacks s1 = (callbacks s ++ [ThenVoiceCommand text lang])%list
  /\ trace (resume toFixed2 numberToString (ThenVoiceCommand text lang)
              (Json data) later)
     = (trace later ++ [Fetch (POST "/search" text lang)])%list.
Proof.
  intros Hs. apply String.eqb_neq in Hs. cbv zeta. repeat split.
  cbn [resume]. unfold voice_command_settled. now rewrite Hs.
Qed.

(** C3: an empty /list answer leaves exactly one entry in the shopping
    list, the literal "No items yet."; a nonempty one leaves one entry
    per item, in order, reading "name (quantity)", the quantity being
    the string itself or the number as the template literal prints it;
    the container is never left empty. *)
Theorem list_response_rendering (items : list (ShoppingItem number))
  (s : page) :
  let entries := shoppingList (list_settled numberToString (Json items) s) in
  entries
  = match items with
    | [] => [LiText "No items yet."]
    | _ :: _ =>
        map (fun item =>
               LiText (item_name item ++ " ("
                       ++ match item_quantity item with
                          | QString q => q
                          | QNumber n => numberToString n
                          end
                       ++ ")"))
          items
    end
  /\ entries <> []
  /\ List.length entries = Nat.max 1 (List.length items).
Proof.
  cbv zeta. rewrite list_settled_json.
  destruct items as [|item items]; cbn [shoppingList set_shoppingList].
  - repeat split. discriminate.
  - repeat split; [discriminate|].
    cbn [map List.length]. now rewrite length_map.
Qed.

(** C4: each view renderer discards what its container held and fills
    it from the sequence fetched for it, and for an empty sequence shows
    its literal placeholder instead of an empty container: "No items
    yet." for the shopping list, "No suggestions available." for the
    suggestions (after the heading, when there is one), "No results
    found." for the search results, whose callback writes it itself and
    hands [updateSearchResults] the nonempty sequences only. *)
Theorem renderers_replace_content (s : page) :
  (forall items : list (ShoppingItem number),
      shoppingList (list_settled numberToString (Json items) s)
      = match items with
        | [] => [LiText "No items yet."]
        | _ :: _ =>
            map (fun item =>
                   LiText (item_name item ++ " ("
                           ++ match item_quantity item with
                              | QString q => q
                              | QNumber n => numberToString n
                              end
                           ++ ")"))
              items
        end)
  /\ (forall (items : list string) (heading : string),
        plain heading = true ->
        suggestionsList (updateSuggestions items heading s)
        = (match heading with
           | EmptyString => []
           | String _ _ => [LiStrong heading]
           end
           ++ match items with
              | [] => [LiText "No suggestions available."]
              | _ :: _ => map LiText items
              end)%list)
  /\ (forall (text lang : string) (data : SearchResponse number),
        found_items data = [] ->
        searchResults (search_settled toFixed2 text lang (Json data) s)
        = [LiText "No results found."])
  /\ (forall (text lang : string) (data : SearchResponse number),
        search_status data = "success" -> found_items data <> [] ->
        searchResults (search_settled toFixed2 text lang (Json data) s)
        = map (fun product =>
                 LiText (product_name product ++ " ("
                         ++ product_brand product ++ ") - $"
                         ++ toFixed2 (product_price product)))
            (found_items data))
  /\ (forall results : list (SearchResult number),
        searchResults (updateSearchResults toFixed2 results s)
        = map (fun product =>
                 LiText (product_name product ++ " ("
                         ++ product_brand product ++ ") - $"
                         ++ toFixed2 (product_price product)))
            results).
Proof.
  split; [|split; [|split; [|split]]].
  - intros items. now rewrite list_settled_json.
  - intros items heading Hh. rewrite updateSuggestions_entries by exact Hh.
    now destruct heading.
  - intros text lang data E. rewrite search_settled_json, E.
    now rewrite andb_false_r.
  - intros text lang data Hs Hne. apply String.eqb_eq in Hs.
    rewrite search_settled_json, Hs.
    destruct (found_items data); [congruence | reflexivity].
  - intros results. now rewrite updateSearchResults_entries.
Qed.

(** C5 (the code at the failing input): a network or parse failure of
    the /list request reaches no handler; the status text, and every
    list, stay as they were, and the rejection goes unhandled. *)
Theorem list_failure_not_reported (err : string) (s : page) :
  list_settled numberToString (NetworkError err) s = emit (Unhandled err) s
  /\ list_settled numberToString (ParseError err) s = emit (Unhandled err) s
  /\ statusMessage (emit (Unhandled err) s) = statusMessage s
  /\ shoppingList (emit (Unhandled err) s) = shoppingList s
  /\ suggestionsList (emit (Unhandled err) s) = suggestionsList s.
Proof. repeat split. Qed.

(** C6: on an answer to /voice-command with status "success" and
    message [m], the status line reads "✅ " followed by [m], a GET /list
    is issued whose answer is rendered into the shopping list, and a
    [substitute_suggestions] field, when present, is rendered into the
    suggestions list under its heading. *)
Theorem success_updates_status_and_list (text lang : string)
  (data : CommandResult) (s : page) :
  cmd_status data = "success" ->
  let s' := voice_command_settled text lang (Json data) s in
  statusMessage s' = "✅ " ++ cmd_message data
  /\ trace s' = (trace s ++ [Fetch (GET "/list")])%list
  /\ callbacks s' = (callbacks s ++ [ThenList])%list
  /\ (forall (items : list (ShoppingItem number)) (later : page),
        shoppingList
          (resume toFixed2 numberToString ThenList (Json items) later)
        = match items with
          | [] => [LiText "No items yet."]
          | _ :: _ =>
              map (fun item => LiText (item_line numberToString item)) items
          end)
  /\ (forall subs : list string,
        substitute_suggestions data = Some subs ->
        suggestionsList s'
        = LiStrong "Suggested substitutes:"
          :: match subs with
             | [] => [LiText "No suggestions available."]
             | _ :: _ => map LiText subs
             end)
  /\ (substitute_suggestions data = None ->
      suggestionsList s' = suggestionsList s).
Proof.
  intros Hs. apply String.eqb_eq in Hs. cbv zeta.
  unfold voice_command_settled. rewrite Hs.
  destruct (substitute_suggestions data) as [subs|].
  - rewrite updateSuggestions_entries by reflexivity.
    repeat split.
    + intros items later. cbn [resume]. now rewrite list_settled_json.
    + intros subs' [= <-]. reflexivity.
    + discriminate.
  - repeat split.
    + intros items later. cbn [resume]. now rewrite list_settled_json.
    + discriminate.
Qed.

(** C7: a recognition error event puts the engine's error code in the
    status text, as "⚠️ Error: <code>", and resets the listening flag. *)
Theorem onerror_reports_code (error : string) (s : page) :
  statusMessage (onerror error s) = "⚠️ Error: " ++ error
  /\ listening (onerror error s) = false.
Proof. split; reflexivity. Qed.

(** C8: the script sets [continuous] and [interimResults] to false on
    the recognition object, and a click that starts recognition leaves
    them so and assigns to [recognition.lang] "es-ES" when the language
    control reads "es" and "en-US" for every other value. *)
Theorem recognition_configuration :
  (forall (fresh : speech_recognition) (s : page),
      exists r,
        recognition (boot true fresh s) = Some r
        /\ continuous r = false /\ interimResults r = false)
  /\ (forall (s : page) (r : speech_recognition),
        recognition s = Some r -> listening s = false ->
        trace (click s) = (trace s ++ [RecognitionStart])%list
        /\ exists r',
            recognition (click s) = Some r'
            /\ continuous r' = continuous r
            /\ interimResults r' = interimResults r
            /\ (lang r' = "en-US" \/ lang r' = "es-ES")
            /\ (languageSelect s = "es" -> lang r' = "es-ES")
            /\ (languageSelect s <> "es" -> lang r' = "en-US"))
  /\ (forall (s : page) (r : speech_recognition),
        recognition s = Some r -> listening s = true ->
        trace (click s) = (trace s ++ [RecognitionStop])%list
        /\ recognition (click s) = Some r).
Proof.
  split; [|split].
  - intros fresh s. eexists. repeat split.
  - intros s r Hr Hl. unfold click. rewrite Hr, Hl.
    split; [reflexivity|]. eexists. split; [reflexivity|].
    cbn [continuous interimResults lang].
    split; [reflexivity|]. split; [reflexivity|]. split; [|split].
    + destruct (languageSelect s =? "es"); [now right | now left].
    + intros E. apply String.eqb_eq in E. now rewrite E.
    + intros E. apply String.eqb_neq in E. now rewrite E.
  - intros s r Hr Hl. unfold click. rewrite Hr, Hl.
    split; [reflexivity | exact Hr].
Qed.

(** C9: called with a non-empty heading, the suggestions renderer puts
    the heading, in bold, as the first entry, before any suggestion; for
    an empty sequence the container then holds exactly two entries, the
    heading and "No suggestions available.".  Both callers pass such a
    heading. *)
Theorem suggestions_heading_first (items : list string) (heading : string)
  (s : page) :
  heading <> EmptyString -> plain heading = true ->
  let entries := suggestionsList (updateSuggestions items heading s) in
  hd_error entries = Some (LiStrong heading)
  /\ entries
     = LiStrong heading
       :: match items with
          | [] => [LiText "No suggestions available."]
          | _ :: _ => map LiText items
          end
  /\ (items = [] ->
      entries = [LiStrong heading; LiText "No suggestions available."]
      /\ List.length entries = 2)
  /\ (forall (data : Suggestions) (later : page),
        hd_error (suggestionsList (suggestions_settled (Json data) later))
        = Some (LiStrong "Smart Suggestions:"))
  /\ (forall (text lang : string) (data : CommandResult) (later : page),
        cmd_status data = "success" ->
        substitute_suggestions data <> None ->
        hd_error
          (suggestionsList
             (voice_command_settled text lang (Json data) later))
        = Some (LiStrong "Suggested substitutes:")).
Proof.
  intros Hne Hp. cbv zeta. rewrite (updateSuggestions_entries _ _ _ Hp).
  destruct heading as [|c heading]; [congruence|].
  cbn [truthy app suggestionsList set_suggestionsList hd_error].
  split; [reflexivity|]. split; [reflexivity|].
  split; [|split].
  - intros ->. split; reflexivity.
  - intros data later. unfold suggestions_settled.
    now rewrite updateSuggestions_entries.
  - intros text lang data later Hs Hsub. apply String.eqb_eq in Hs.
    unfold voice_command_settled. rewrite Hs.
    destruct (substitute_suggestions data) as [subs|]; [|congruence].
    now rewrite updateSuggestions_entries.
Qed.

(** C10: the recognition error handler changes the status text and the
    listening flag and nothing else; in particular the mic button keeps
    its label, which the end handler alone sets back to
    "🎤 Start Listening". *)
Theorem onerror_keeps_button_label (error : string) (s : page) :
  startMicButton (onerror error s) = startMicButton s
  /\ onerror error s
     = set_listening false (set_statusMessage ("⚠️ Error: " ++ error) s)
  /\ startMicDisabled (onerror error s) = startMicDisabled s
  /\ languageSelect (onerror error s) = languageSelect s
  /\ shoppingList (onerror error s) = shoppingList s
  /\ suggestionsList (onerror error s) = suggestionsList s
  /\ searchResults (onerror error s) = searchResults s
  /\ recognition (onerror error s) = recognition s
  /\ callbacks (onerror error s) = callbacks s
  /\ trace (onerror error s) = trace s
  /\ startMicButton (onend (onerror error s)) = "🎤 Start Listening"
  /\ startMicButton (onstart s) = "🛑 Stop".
Proof. repeat split. Qed.

End Rendering.

(** ** The script on concrete inputs *)

Import Inputs.

Example boot_loads_list_and_suggestions :
  trace (boot true {| continuous := true; interimResults := true;
                      lang := EmptyString |} page0)
  = [Fetch (GET "/list"); Fetch (GET "/suggestions")].
Proof. reflexivity. Qed.

Example onresult_sends_transcript :
  let s := onresult Sample.trim "add milk 2" page0 in
  statusMessage s = "📥 Heard: " ++ dquote ++ "add milk 2" ++ dquote
  /\ trace s = [Fetch (POST "/voice-command" "add milk 2" "en")].
Proof. split; reflexivity. Qed.

Example onresult_trims_transcript :
  trace (onresult Sample.trim "  add milk 2 " page0)
  = [Fetch (POST "/voice-command" "add milk 2" "en")].
Proof. reflexivity. Qed.

Example list_of_two_items :
  shoppingList
    (list_settled Sample.numberToString (Json [bread; apples]) page0)
  = [LiText "bread (2)"; LiText "apples (1 kg)"].
Proof. reflexivity. Qed.

Lemma search_response_rendering_witness :
  search_status successful_hit = "success"
  /\ found_items successful_hit <> []
  /\ searchResults
       (search_settled Sample.toFixed2 "milk" "en" (Json successful_hit) page0)
     = [LiText "Milk (Amul) - $1.50"].
Proof.
  assert (Hne : found_items successful_hit <> []) by discriminate.
  split; [reflexivity|]. split; [exact Hne|].
  exact (proj1 (search_response_rendering Sample.number Sample.toFixed2
                  "milk" "en" successful_hit page0) eq_refl Hne).
Defined.

(** C1 as stated fails: a response with a hit whose status is not
    "success" leaves the placeholder, not the hit, in the container. *)
Lemma search_unsuccessful_hit_counterexample :
  ~ (found_items unsuccessful_hit <> [] ->
     searchResults
       (search_settled Sample.toFixed2 "milk" "en" (Json unsuccessful_hit)
          page0)
     = map (fun product => LiText (product_line Sample.toFixed2 product))
         (found_items unsuccessful_hit)).
Proof.
  intros H. assert (Hne : found_items unsuccessful_hit <> []) by discriminate.
  specialize (H Hne). vm_compute in H. discriminate H.
Qed.

Lemma nonmatch_forwards_witness :
  cmd_status not_a_command <> "success"
  /\ trace (resume Sample.toFixed2 Sample.numberToString
              (ThenVoiceCommand "find milk" (languageSelect page0))
              (Json not_a_command) page_es)
     = [Fetch (POST "/search" "find milk" "en")].
Proof.
  assert (Hs : cmd_status not_a_command <> "success") by discriminate.
  split; [exact Hs|].
  exact (proj2 (proj2 (nonmatch_forwards_same_text_and_lang
                         Sample.number Sample.toFixed2 Sample.numberToString
                         "find milk" not_a_command page0 page_es Hs))).
Defined.

Lemma list_response_rendering_witness :
  shoppingList
    (list_settled Sample.numberToString (Json [bread; apples; juice]) page0)
  = [LiText "bread (2)"; LiText "apples (1 kg)"; LiText "juice (2.5)"]
  /\ shoppingList (list_settled Sample.numberToString (Json []) page0)
     = [LiText "No items yet."].
Proof.
  split.
  - exact (proj1 (list_response_rendering Sample.number
                    Sample.numberToString [bread; apples; juice] page0)).
  - exact (proj1 (list_response_rendering Sample.number
                    Sample.numberToString [] page0)).
Defined.

Lemma renderers_replace_content_witness :
  shoppingList (list_settled Sample.numberToString (Json []) page0)
  = [LiText "No items yet."]
  /\ plain EmptyString = true
  /\ suggestionsList (updateSuggestions [] EmptyString page0)
     = [LiText "No suggestions available."]
  /\ suggestionsList (updateSuggestions ["kiwi"; "plum"] EmptyString page0)
     = [LiText "kiwi"; LiText "plum"]
  /\ plain "Smart Suggestions:" = true
  /\ suggestionsList (updateSuggestions [] "Smart Suggestions:" page0)
     = [LiStrong "Smart Suggestions:"; LiText "No suggestions available."]
  /\ found_items nothing_found = []
  /\ searchResults
       (search_settled Sample.toFixed2 "kiwi" "en" (Json nothing_found) page0)
     = [LiText "No results found."]
  /\ search_status successful_hit = "success"
  /\ found_items successful_hit <> []
  /\ searchResults
       (search_settled Sample.toFixed2 "milk" "en" (Json successful_hit) page0)
     = [LiText "Milk (Amul) - $1.50"].
Proof.
  pose proof (renderers_replace_content Sample.number Sample.toFixed2
                Sample.numberToString page0)
    as (Hlist & Hsug & Hnone & Hhits & _).
  assert (Hne : found_items successful_hit <> []) by discriminate.
  split; [exact (Hlist [])|].
  split; [reflexivity|].
  split; [exact (Hsug [] EmptyString eq_refl)|].
  split; [exact (Hsug ["kiwi"; "plum"] EmptyString eq_refl)|].
  split; [reflexivity|].
  split; [exact (Hsug [] "Smart Suggestions:" eq_refl)|].
  split; [reflexivity|].
  split; [exact (Hnone "kiwi" "en" nothing_found eq_refl)|].
  split; [reflexivity|].
  split; [exact Hne|].
  exact (Hhits "milk" "en" successful_hit eq_refl Hne).
Defined.

Lemma success_updates_status_and_list_witness :
  cmd_status added_milk = "success"
  /\ statusMessage
       (voice_command_settled "add milk 2" "en" (Json added_milk) page0)
     = "✅ Added milk"
  /\ trace (voice_command_settled "add milk 2" "en" (Json added_milk) page0)
     = [Fetch (GET "/list")].
Proof.
  pose proof (success_updates_status_and_list Sample.number Sample.toFixed2
                Sample.numberToString "add milk 2" "en" added_milk page0
                eq_refl) as (Hstatus & Htrace & _).
  split; [reflexivity|]. split; [exact Hstatus | exact Htrace].
Defined.

Lemma recognition_configuration_witness :
  recognition page_es
  = Some {| continuous := false; interimResults := false;
            lang := EmptyString |}
  /\ listening page_es = false
  /\ trace (click page_es) = [RecognitionStart]
  /\ option_map lang (recognition (click page_es)) = Some "es-ES".
Proof.
  pose proof (proj1 (proj2 recognition_configuration) page_es _
                eq_refl eq_refl) as (Htrace & r' & Hr' & _ & _ & _ & Hes & _).
  split; [reflexivity|]. split; [reflexivity|]. split; [exact Htrace|].
  rewrite Hr'. cbn [option_map]. f_equal. exact (Hes eq_refl).
Defined.

Lemma suggestions_heading_first_witness :
  "Suggested substitutes:" <> EmptyString
  /\ plain "Suggested substitutes:" = true
  /\ suggestionsList (updateSuggestions [] "Suggested substitutes:" page0)
     = [LiStrong "Suggested substitutes:"; LiText "No suggestions available."].
Proof.
  assert (Hne : "Suggested substitutes:" <> EmptyString) by discriminate.
  split; [exact Hne|]. split; [reflexivity|].
  exact (proj1 (proj2 (suggestions_heading_first [] _ page0 Hne eq_refl))).
Defined.

(** ** Further properties of the script *)

Section Handlers.

Variable number : Type.
Variable toFixed2 : number -> string.
Variable numberToString : number -> string.
Variable trim : string -> string.

Lemma fetches_app (t u : list effect) :
  fetches (t ++ u) = (fetches t ++ fetches u)%list.
Proof. unfold fetches. apply flat_map_app. Qed.

Lemma recognition_starts_app (t u : list effect) :
  recognition_starts (t ++ u) = recognition_starts t + recognition_starts u.
Proof. unfold recognition_starts. now rewrite filter_app, length_app. Qed.

(** Whatever the heading, [updateSuggestions] writes the suggestions
    container and nothing else. *)
Lemma updateSuggestions_frame (items : list string) (heading : string)
  (s : page) :
  exists entries,
    updateSuggestions items heading s = set_suggestionsList entries s.
Proof.
  unfold updateSuggestions. destruct items as [|item items].
  - eexists. reflexivity.
  - cbn [List.length Nat.eqb]. rewrite (forEach_suggestionsList li).
    eexists. reflexivity.
Qed.

Ltac shape_done :=
  do 6 eexists; split;
  [ reflexivity
  | cbn -[recognition_starts];
    try (rewrite recognition_starts_app; cbn; lia); reflexivity ].

(** A settled [fetch] chain leaves the controls alone: it may change the
    status text, the three lists, the callbacks and the trace, and it
    never starts recognition. *)
Lemma resume_shape (k : continuation) (r : settled (payload number k))
  (s : page) :
  exists st sl sg sr cb t,
    resume toFixed2 numberToString k r s
    = {| statusMessage := st; startMicButton := startMicButton s;
         startMicDisabled := startMicDisabled s;
         languageSelect := languageSelect s; shoppingList := sl;
         suggestionsList := sg; searchResults := sr;
         listening := listening s; recognition := recognition s;
         callbacks := cb; trace := t |}
    /\ recognition_starts t = recognition_starts (trace s).
Proof.
  destruct k as [text lang|text lang| |]; cbn [resume payload] in *.
  - destruct r as [data|err|err]; unfold voice_command_settled.
    + destruct (cmd_status data =? "success").
      * destruct (substitute_suggestions data) as [subs|].
        -- destruct (updateSuggestions_frame subs "Suggested substitutes:"
                       (set_statusMessage ("✅ " ++ cmd_message data) s))
             as [entries ->].
           shape_done.
        -- shape_done.
      * shape_done.
    + shape_done.
    + shape_done.
  - destruct r as [data|err|err].
    + rewrite search_settled_json.
      destruct ((search_status data =? "success")
                && negb (Nat.eqb (List.length (found_items data)) 0));
        shape_done.
    + shape_done.
    + shape_done.
  - destruct r as [items|err|err].
    + rewrite list_settled_json. shape_done.
    + shape_done.
    + shape_done.
  - destruct r as [data|err|err]; unfold suggestions_settled.
    + destruct (updateSuggestions_frame
                  (seasonal_suggestions data ++ frequently_bought data)
                  "Smart Suggestions:" s) as [entries ->].
      shape_done.
    + shape_done.
    + shape_done.
Qed.

(** X1: an answer to /voice-command triggers exactly one further
    request, GET /list when its status is "success" and POST /search with
    the captured text and lang otherwise, never both; the shopping list
    and the search results are not touched before that request is
    answered. *)
Theorem command_answer_single_followup (text lang : string)
  (data : CommandResult) (s : page) :
  let s' := voice_command_settled text lang (Json data) s in
  let success := cmd_status data =? "success" in
  trace s'
  = (trace s
     ++ [Fetch (if success then GET "/list" else POST "/search" text lang)])%list
  /\ callbacks s'
     = (callbacks s ++ [if success then ThenList else ThenSearch text lang])%list
  /\ shoppingList s' = shoppingList s
  /\ searchResults s' = searchResults s.
Proof.
  cbv zeta. unfold voice_command_settled.
  destruct (cmd_status data =? "success"); [|repeat split].
  destruct (substitute_suggestions data) as [subs|]; [|repeat split].
  destruct (updateSuggestions_frame subs "Suggested substitutes:"
              (set_statusMessage ("✅ " ++ cmd_message data) s))
    as [entries ->].
  repeat split.
Qed.

(** X2: each renderer writes its own container and nothing else on the
    page, whatever it is given (for [updateSuggestions], any heading). *)
Theorem renderers_write_own_container (s : page) :
  (forall items : list (ShoppingItem number),
      let s' := list_settled numberToString (Json items) s in
      s' = set_shoppingList (shoppingList s') s)
  /\ (forall (items : list string) (heading : string),
        let s' := updateSuggestions items heading s in
        s' = set_suggestionsList (suggestionsList s') s)
  /\ (forall results : list (SearchResult number),
        let s' := updateSearchResults toFixed2 results s in
        s' = set_searchResults (searchResults s') s).
Proof.
  split; [|split]; cbv zeta.
  - intros items. now rewrite list_settled_json.
  - intros items heading.
    now destruct (updateSuggestions_frame items heading s) as [entries ->].
  - intros results. now rewrite updateSearchResults_entries.
Qed.

(** X3: rendering does not accumulate: a renderer run after another run
    of itself leaves the page exactly as if it had run alone, so the
    container always shows the answer that arrived last. *)
Theorem last_answer_wins (s : page) :
  (forall a b : list (ShoppingItem number),
      list_settled numberToString (Json a)
        (list_settled numberToString (Json b) s)
      = list_settled numberToString (Json a) s)
  /\ (forall (a b : list string) (h h' : string),
        updateSuggestions a h (updateSuggestions b h' s)
        = updateSuggestions a h s)
  /\ (forall a b : list (SearchResult number),
        updateSearchResults toFixed2 a (updateSearchResults toFixed2 b s)
        = updateSearchResults toFixed2 a s)
  /\ (forall (t t' l l' : string) (d d' : SearchResponse number),
        searchResults
          (search_settled toFixed2 t l (Json d)
             (search_settled toFixed2 t' l' (Json d') s))
        = searchResults (search_settled toFixed2 t l (Json d) s)).
Proof.
  split; [|split; [|split]].
  - intros a b. now rewrite !list_settled_json.
  - intros a b h h'.
    destruct (updateSuggestions_frame b h' s) as [entries ->].
    unfold updateSuggestions. destruct a as [|item a]; [reflexivity|].
    cbn [List.length Nat.eqb]. now rewrite !(forEach_suggestionsList li).
  - intros a b. now rewrite !updateSearchResults_entries.
  - intros t t' l l' d d'. rewrite !search_settled_json.
    destruct ((search_status d =? "success")
              && negb (Nat.eqb (List.length (found_items d)) 0));
      destruct ((search_status d' =? "success")
                && negb (Nat.eqb (List.length (found_items d')) 0));
      reflexivity.
Qed.

(** X4: the answer to /suggestions is shown under the single heading
    "Smart Suggestions:", the seasonal suggestions first and the
    frequently bought ones after them, each in its own order; the
    placeholder appears only when both sequences are empty. *)
Theorem suggestions_answer_order (data : Suggestions) (s : page) :
  let entries := suggestionsList (suggestions_settled (Json data) s) in
  let seasonal := seasonal_suggestions data in
  let frequent := frequently_bought data in
  entries
  = LiStrong "Smart Suggestions:"
    :: match (seasonal ++ frequent)%list with
       | [] => [LiText "No suggestions available."]
       | _ :: _ => (map LiText seasonal ++ map LiText frequent)%list
       end
  /\ List.length entries
     = 1 + Nat.max 1 (List.length seasonal + List.length frequent).
Proof.
  cbv zeta. unfold suggestions_settled.
  rewrite updateSuggestions_entries by reflexivity.
  cbn [truthy app suggestionsList set_suggestionsList].
  destruct (seasonal_suggestions data ++ frequently_bought data)%list
    as [|x xs] eqn:E.
  - apply app_eq_nil in E. destruct E as [-> ->]. split; reflexivity.
  - rewrite <- map_app, E. split; [reflexivity|].
    cbn [List.length]. rewrite length_map, <- length_app, E.
    cbn [List.length]. lia.
Qed.

(** X5: when a search succeeds with hits, the number shown in the status
    line is the number of entries now in the search-results container,
    which is the number of hits and at least one. *)
Theorem search_found_count (text lang : string)
  (data : SearchResponse number) (s : page) :
  search_status data = "success" -> found_items data <> [] ->
  let s' := search_settled toFixed2 text lang (Json data) s in
  statusMessage s'
  = "🔎 Found " ++ decimal (List.length (searchResults s')) ++ " result(s)."
  /\ List.length (searchResults s') = List.length (found_items data)
  /\ 1 <= List.length (searchResults s').
Proof.
  intros Hs Hne. apply String.eqb_eq in Hs. cbv zeta.
  rewrite search_settled_json, Hs.
  destruct (found_items data) as [|p ps]; [congruence|].
  cbn [List.length Nat.eqb negb andb searchResults statusMessage
         set_searchResults set_statusMessage map].
  rewrite length_map. repeat split. lia.
Qed.

(** X6: however the /search chain settles (answer or failure), it issues
    no further request, registers no callback, and leaves the shopping
    list, the suggestions and the mic controls as they were. *)
Theorem search_chain_ends (text lang : string)
  (r : settled (SearchResponse number)) (s : page) :
  let s' := search_settled toFixed2 text lang r s in
  fetches (trace s') = fetches (trace s)
  /\ callbacks s' = callbacks s
  /\ shoppingList s' = shoppingList s
  /\ suggestionsList s' = suggestionsList s
  /\ listening s' = listening s
  /\ startMicButton s' = startMicButton s.
Proof.
  cbv zeta. destruct r as [data|err|err].
  - rewrite search_settled_json.
    destruct ((search_status data =? "success")
              && negb (Nat.eqb (List.length (found_items data)) 0));
      repeat split.
  - unfold search_settled. cbn -[fetches]. rewrite fetches_app.
    cbn. rewrite app_nil_r. repeat split.
  - unfold search_settled. cbn -[fetches]. rewrite fetches_app.
    cbn. rewrite app_nil_r. repeat split.
Qed.

(** X7: a request that fails, by the network or by the JSON parser, is
    never retried and changes none of the three lists.  The status line
    gets a fixed text for /voice-command and /search and is left as it
    was for /list and /suggestions. *)
Theorem failures_never_retry (k : continuation) (by_parser : bool)
  (err : string) (s : page) :
  let s' := resume toFixed2 numberToString k (rejected by_parser err) s in
  fetches (trace s') = fetches (trace s)
  /\ callbacks s' = callbacks s
  /\ shoppingList s' = shoppingList s
  /\ suggestionsList s' = suggestionsList s
  /\ searchResults s' = searchResults s
  /\ statusMessage s'
     = match k with
       | ThenVoiceCommand _ _ => "❌ Failed to process voice command."
       | ThenSearch _ _ => "❌ Search failed."
       | ThenList | ThenSuggestions => statusMessage s
       end.
Proof.
  cbv zeta.
  destruct k, by_parser; cbn -[fetches]; rewrite fetches_app; cbn;
    rewrite app_nil_r; repeat split.
Qed.

(** ** Sequences of events *)

(** An invariant kept by every handler holds after any run. *)
Lemma run_invariant (P : page -> Prop) :
  (forall e s, P s -> P (handle toFixed2 numberToString trim e s)) ->
  forall events s, P s -> P (run toFixed2 numberToString trim events s).
Proof.
  intros Hstep events. unfold run.
  induction events as [|e events IH]; intros s Hs; [exact Hs|].
  cbn [fold_left]. apply IH, Hstep, Hs.
Qed.

Ltac settle_shape k r s :=
  let E := fresh "E" in
  destruct (resume_shape k r s) as (? & ? & ? & ? & ? & ? & E & ?);
  cbn [handle]; rewrite E.

(** X8: in every reachable state, a set listening flag goes with the
    "🛑 Stop" label on the mic button: every handler keeps this, so it
    holds after any sequence of events from a state where it holds. *)
Theorem listening_shows_stop (events : list (event number)) (s : page) :
  (listening s = true -> startMicButton s = "🛑 Stop") ->
  let s' := run toFixed2 numberToString trim events s in
  listening s' = true -> startMicButton s' = "🛑 Stop".
Proof.
  cbv zeta.
  apply (run_invariant
           (fun s => listening s = true -> startMicButton s = "🛑 Stop")).
  clear s. intros e s Hs.
  destruct e as [|value| | |error|heard|k r].
  - cbn [handle]. unfold click.
    destruct (recognition s); [destruct (listening s) eqn:El|];
      cbn; intros H; try discriminate H; apply Hs; congruence.
  - exact Hs.
  - reflexivity.
  - discriminate.
  - discriminate.
  - exact Hs.
  - settle_shape k r s. exact Hs.
Qed.

(** X9: clicks, language changes and recognition callbacks never change
    the shopping list, the suggestions or the search results: over any
    sequence of events in which no [fetch] chain settles, the three
    containers stay as they were. *)
Theorem lists_change_only_on_answers (events : list (event number))
  (s : page) :
  forallb (fun e => negb (is_settle e)) events = true ->
  let s' := run toFixed2 numberToString trim events s in
  shoppingList s' = shoppingList s
  /\ suggestionsList s' = suggestionsList s
  /\ searchResults s' = searchResults s.
Proof.
  cbv zeta. revert s. unfold run.
  induction events as [|e events IH]; intros s Hev; [repeat split|].
  cbn [forallb] in Hev. apply andb_prop in Hev. destruct Hev as [He Hev].
  cbn [fold_left]. destruct (IH (handle toFixed2 numberToString trim e s) Hev)
    as (-> & -> & ->).
  destruct e as [|value| | |error|heard|k r]; try discriminate He;
    try (repeat split; fail).
  cbn [handle]. unfold click.
  destruct (recognition s); [destruct (listening s)|]; repeat split.
Qed.

(** X10: on a browser with speech recognition, the script requests
    /list and then /suggestions, raises no alert, and from then on,
    whatever events follow, the recognition object stays set for single
    final results ([continuous] and [interimResults] false) with a locale
    that is the constructor's default, "en-US" or "es-ES". *)
Theorem supported_stays_configured (events : list (event number))
  (fresh : speech_recognition) (s : page) :
  let s0 := boot true fresh s in
  trace s0 = (trace s ++ [Fetch (GET "/list"); Fetch (GET "/suggestions")])%list
  /\ startMicDisabled s0 = startMicDisabled s
  /\ configured (lang fresh)
       (run toFixed2 numberToString trim events s0).
Proof.
  cbv zeta. split; [|split].
  - cbn. now rewrite <- app_assoc.
  - reflexivity.
  - apply (run_invariant (configured (lang fresh))).
    + clear. intros e s (r & Hr & Hc & Hi & Hl).
      destruct e as [|value| | |error|heard|k r0];
        try (exists r; repeat split; assumption).
      * cbn [handle]. unfold click. rewrite Hr.
        destruct (listening s).
        -- exists r. repeat split; assumption.
        -- eexists. split; [reflexivity|].
           cbn [continuous interimResults lang]. repeat split; try assumption.
           destruct (languageSelect s =? "es"); auto.
      * settle_shape k r0 s. exists r. repeat split; assumption.
    + eexists. split; [reflexivity|]. cbn. auto.
Qed.

(** X11: on a browser without speech recognition, the script raises its
    alert once, disables the mic button, and still requests /list and
    then /suggestions; whatever events follow, the button stays
    disabled, there is no recognition object, and [recognition.start()]
    is never called. *)
Theorem unsupported_never_starts (events : list (event number))
  (fresh : speech_recognition) (s : page) :
  let s0 := boot false fresh s in
  let s' := run toFixed2 numberToString trim events s0 in
  trace s0
  = (trace s
     ++ [Alert "Speech Recognition not supported. Use Chrome or Edge.";
         Fetch (GET "/list"); Fetch (GET "/suggestions")])%list
  /\ recognition s' = None
  /\ startMicDisabled s' = true
  /\ recognition_starts (trace s') = recognition_starts (trace s).
Proof.
  cbv zeta. split.
  - cbn. now rewrite <- !app_assoc.
  - apply (run_invariant
             (fun x => recognition x = None /\ startMicDisabled x = true
                       /\ recognition_starts (trace x)
                          = recognition_starts (trace s))).
    + clear. intros e x (Hr & Hd & Ht).
      destruct e as [|value| | |error|heard|k r]; try (repeat split; assumption).
      * cbn [handle]. unfold click. rewrite Hr.
        cbn -[recognition_starts]. rewrite recognition_starts_app.
        repeat split; try assumption. cbn. lia.
      * cbn [handle]. unfold onresult, processVoiceCommand, fetch.
        cbn -[recognition_starts]. rewrite recognition_starts_app.
        repeat split; try assumption. cbn. lia.
      * settle_shape k r x. cbn -[recognition_starts].
        repeat split; try assumption. congruence.
    + cbn -[recognition_starts]. rewrite !recognition_starts_app.
      repeat split. cbn. lia.
Qed.

(** X12: toggling the mic.  From an idle page, a click starts
    recognition; once the engine has started, a second click calls
    [recognition.stop()] and changes nothing on the page by itself: the
    button still reads "🛑 Stop" until the engine's end event, which
    restores the idle label and clears the listening flag. *)
Theorem mic_toggle (s : page) (r : speech_recognition) :
  recognition s = Some r -> listening s = false ->
  let stopping := run toFixed2 numberToString trim [Click; OnStart; Click] s in
  let ended := handle toFixed2 numberToString trim OnEnd stopping in
  trace stopping = (trace s ++ [RecognitionStart; RecognitionStop])%list
  /\ startMicButton stopping = "🛑 Stop"
  /\ listening stopping = true
  /\ trace ended = trace stopping
  /\ startMicButton ended = "🎤 Start Listening"
  /\ listening ended = false.
Proof.
  intros Hr Hl. cbv zeta. unfold run. cbn [fold_left handle].
  assert (E : click s
              = s |> set_recognition
                       (Some {| continuous := continuous r;
                                interimResults := interimResults r;
                                lang := if languageSelect s =? "es"
                                        then "es-ES" else "en-US" |})
                  |> emit RecognitionStart)
    by (unfold click; now rewrite Hr, Hl).
  rewrite E. unfold click. cbn. rewrite <- app_assoc. repeat split.
Qed.

(** X13: a recognition error that is not followed by an end event leaves
    the button reading "🛑 Stop" while the listening flag is already
    false, so the next click does not stop anything: it assigns the
    locale and calls [recognition.start()] again. *)
Theorem click_after_error_restarts (s : page) (r : speech_recognition)
  (error : string) :
  recognition s = Some r ->
  let failed := run toFixed2 numberToString trim [OnStart; OnError error] s in
  startMicButton failed = "🛑 Stop"
  /\ listening failed = false
  /\ trace (click failed) = (trace s ++ [RecognitionStart])%list
  /\ startMicButton (click failed) = "🛑 Stop".
Proof.
  intros Hr. cbv zeta. unfold run. cbn [fold_left handle].
  unfold click. cbn. rewrite Hr. repeat split.
Qed.

(** X14: the recognition locale is fixed by the click that starts
    listening, while the lang sent with the transcript is read from the
    language control when the result arrives: if the user changes the
    control in between, the request carries the new value and the
    recognition object keeps the locale of the old one. *)
Theorem locale_and_lang_read_at_different_times (s : page)
  (r : speech_recognition) (value heard : string) :
  recognition s = Some r -> listening s = false ->
  let s' :=
    run toFixed2 numberToString trim
      [Click; OnStart; LanguageChange value; OnResult heard] s in
  trace s'
  = (trace s
     ++ [RecognitionStart; Fetch (POST "/voice-command" (trim heard) value)])%list
  /\ option_map lang (recognition s')
     = Some (if languageSelect s =? "es" then "es-ES" else "en-US")
  /\ callbacks s'
     = (callbacks s ++ [ThenVoiceCommand (trim heard) value])%list.
Proof.
  intros Hr Hl. cbv zeta. unfold run. cbn [fold_left handle].
  unfold click. rewrite Hr, Hl. cbn. rewrite <- app_assoc. repeat split.
Qed.

(** X15: a transcript the backend does not take as a command and for
    which the search finds nothing: the page has issued exactly the two
    POSTs, both with the trimmed transcript and the language read when
    the result arrived; the status line quotes the trimmed transcript,
    the search results show the single placeholder, and the shopping
    list and suggestions are as before. *)
Theorem unmatched_utterance_end_to_end (heard : string)
  (data : CommandResult) (found : SearchResponse number) (s : page) :
  cmd_status data <> "success" -> found_items found = [] ->
  let text := trim heard in
  let lang := languageSelect s in
  let s' :=
    run toFixed2 numberToString trim
      [OnResult heard;
       Settle (ThenVoiceCommand text lang) (Json data);
       Settle (ThenSearch text lang) (Json found)] s in
  fetches (trace s')
  = (fetches (trace s)
     ++ [POST "/voice-command" text lang; POST "/search" text lang])%list
  /\ statusMessage s' = "❌ Nothing found for: " ++ dquote ++ text ++ dquote
  /\ searchResults s' = [LiText "No results found."]
  /\ shoppingList s' = shoppingList s
  /\ suggestionsList s' = suggestionsList s.
Proof.
  intros Hs Hf. apply String.eqb_neq in Hs. cbv zeta.
  unfold run. cbn [fold_left handle resume].
  rewrite search_settled_json, Hf, andb_false_r.
  unfold voice_command_settled. rewrite Hs.
  cbn -[fetches]. rewrite !fetches_app. cbn. rewrite <- app_assoc.
  repeat split.
Qed.

Ltac appends t :=
  exists t; split; [cbn; now rewrite ?app_nil_r|];
  split; [reflexivity | cbn; auto with arith].

Lemma handle_appends (e : event number) (s : page) :
  exists added,
    trace (handle toFixed2 numberToString trim e s) = (trace s ++ added)%list
    /\ forallb later_effect added = true
    /\ List.length added <= 1.
Proof.
  destruct e as [|value| | |error|heard|k r]; cbn [handle].
  - unfold click. destruct (recognition s); [destruct (listening s)|].
    + appends [RecognitionStop].
    + appends [RecognitionStart].
    + appends [Unhandled "TypeError"].
  - appends (@nil effect).
  - appends (@nil effect).
  - appends (@nil effect).
  - appends (@nil effect).
  - appends [Fetch (POST "/voice-command" (trim heard) (languageSelect s))].
  - destruct k as [text lang|text lang| |]; cbn [resume payload] in *.
    + destruct r as [data|err|err]; unfold voice_command_settled.
      * destruct (cmd_status data =? "success").
        -- destruct (substitute_suggestions data) as [subs|].
           ++ destruct (updateSuggestions_frame subs "Suggested substitutes:"
                          (set_statusMessage ("✅ " ++ cmd_message data) s))
                as [entries ->].
              appends [Fetch (GET "/list")].
           ++ appends [Fetch (GET "/list")].
        -- appends [Fetch (POST "/search" text lang)].
      * appends [ConsoleError "Error handling command:" err].
      * appends [ConsoleError "Error handling command:" err].
    + destruct r as [data|err|err].
      * rewrite search_settled_json.
        destruct ((search_status data =? "success")
                  && negb (Nat.eqb (List.length (found_items data)) 0));
          appends (@nil effect).
      * appends [ConsoleError "Search error:" err].
      * appends [ConsoleError "Search error:" err].
    + destruct r as [items|err|err].
      * rewrite list_settled_json. appends (@nil effect).
      * appends [Unhandled err].
      * appends [Unhandled err].
    + destruct r as [data|err|err]; unfold suggestions_settled.
      * destruct (updateSuggestions_frame
                    (seasonal_suggestions data ++ frequently_bought data)
                    "Smart Suggestions:" s) as [entries ->].
        appends (@nil effect).
      * appends [Unhandled err].
      * appends [Unhandled err].
Qed.

(** X16: effects are only ever added, and after the script has loaded
    no event makes the page alert or request anything but POST
    /voice-command, POST /search and GET /list: in particular
    /suggestions is requested at load only. *)
Theorem events_add_only_later_effects (events : list (event number))
  (s : page) :
  exists added,
    trace (run toFixed2 numberToString trim events s)
    = (trace s ++ added)%list
    /\ forallb later_effect added = true
    /\ List.length added <= List.length events.
Proof.
  revert s. unfold run.
  induction events as [|e events IH]; intros s.
  - exists []. cbn. now rewrite app_nil_r.
  - cbn [fold_left].
    destruct (IH (handle toFixed2 numberToString trim e s))
      as (later & -> & Hlater & Hlen).
    destruct (handle_appends e s) as (first & -> & Hfirst & Hone).
    exists (first ++ later)%list.
    rewrite <- app_assoc, forallb_app, Hfirst, Hlater, length_app.
    repeat split. cbn [List.length]. lia.
Qed.

End Handlers.

Lemma search_found_count_witness :
  search_status successful_hit = "success"
  /\ found_items successful_hit <> []
  /\ statusMessage
       (search_settled Sample.toFixed2 "milk" "en" (Json successful_hit) page0)
     = "🔎 Found 1 result(s).".
Proof.
  assert (Hne : found_items successful_hit <> []) by discriminate.
  split; [reflexivity|]. split; [exact Hne|].
  exact (proj1 (search_found_count Sample.number Sample.toFixed2
                  "milk" "en" successful_hit page0 eq_refl Hne)).
Defined.

Lemma listening_shows_stop_witness :
  listening (run Sample.toFixed2 Sample.numberToString Sample.trim
               [Click; OnStart; LanguageChange "es";
                Settle ThenList (Json [bread])] page0) = true
  /\ startMicButton
       (run Sample.toFixed2 Sample.numberToString Sample.trim
          [Click; OnStart; LanguageChange "es";
           Settle ThenList (Json [bread])] page0) = "🛑 Stop".
Proof.
  split; [reflexivity|].
  apply (listening_shows_stop Sample.number Sample.toFixed2
           Sample.numberToString Sample.trim
           [Click; OnStart; LanguageChange "es";
            Settle ThenList (Json [bread])] page0).
  - discriminate.
  - reflexivity.
Defined.

Lemma lists_change_only_on_answers_witness :
  shoppingList
    (run Sample.toFixed2 Sample.numberToString Sample.trim
       [Click; OnStart; OnResult "add milk 2"; OnEnd; LanguageChange "es"]
       page0)
  = [LiText "eggs (12)"].
Proof.
  exact (proj1 (lists_change_only_on_answers Sample.number Sample.toFixed2
                  Sample.numberToString Sample.trim
                  [Click; OnStart; OnResult "add milk 2"; OnEnd;
                   LanguageChange "es"] page0 eq_refl)).
Defined.

Lemma mic_toggle_witness :
  recognition page0
  = Some {| continuous := false; interimResults := false;
            lang := EmptyString |}
  /\ listening page0 = false
  /\ trace (run Sample.toFixed2 Sample.numberToString Sample.trim
              [Click; OnStart; Click] page0)
     = [RecognitionStart; RecognitionStop].
Proof.
  split; [reflexivity|]. split; [reflexivity|].
  exact (proj1 (mic_toggle Sample.number Sample.toFixed2
                  Sample.numberToString Sample.trim page0 _
                  eq_refl eq_refl)).
Defined.

Lemma click_after_error_restarts_witness :
  recognition page0
  = Some {| continuous := false; interimResults := false;
            lang := EmptyString |}
  /\ trace (click (run Sample.toFixed2 Sample.numberToString Sample.trim
                     [OnStart; OnError "no-speech"] page0))
     = [RecognitionStart].
Proof.
  split; [reflexivity|].
  exact (proj1 (proj2 (proj2
           (click_after_error_restarts Sample.number Sample.toFixed2
              Sample.numberToString Sample.trim page0 _ "no-speech"
              eq_refl)))).
Defined.

Lemma locale_and_lang_witness :
  recognition page_es
  = Some {| continuous := false; interimResults := false;
            lang := EmptyString |}
  /\ listening page_es = false
  /\ trace (run Sample.toFixed2 Sample.numberToString Sample.trim
              [Click; OnStart; LanguageChange "en"; OnResult "add milk 2"]
              page_es)
     = [RecognitionStart; Fetch (POST "/voice-command" "add milk 2" "en")]
  /\ option_map lang
       (recognition
          (run Sample.toFixed2 Sample.numberToString Sample.trim
             [Click; OnStart; LanguageChange "en"; OnResult "add milk 2"]
             page_es))
     = Some "es-ES".
Proof.
  pose proof (locale_and_lang_read_at_different_times Sample.number
                Sample.toFixed2 Sample.numberToString Sample.trim
                page_es _ "en" "add milk 2" eq_refl eq_refl)
    as (Htrace & Hlang & _).
  split; [reflexivity|]. split; [reflexivity|].
  split; [exact Htrace | exact Hlang].
Defined.

Lemma unmatched_utterance_witness :
  cmd_status not_a_command <> "success"
  /\ found_items nothing_found = []
  /\ statusMessage
       (run Sample.toFixed2 Sample.numberToString Sample.trim
          [OnResult "find kiwi";
           Settle (ThenVoiceCommand "find kiwi" "en") (Json not_a_command);
           Settle (ThenSearch "find kiwi" "en") (Json nothing_found)] page0)
     = "❌ Nothing found for: " ++ dquote ++ "find kiwi" ++ dquote.
Proof.
  assert (Hs : cmd_status not_a_command <> "success") by discriminate.
  split; [exact Hs|]. split; [reflexivity|].
  exact (proj1 (proj2
           (unmatched_utterance_end_to_end Sample.number Sample.toFixed2
              Sample.numberToString Sample.trim "find kiwi" not_a_command
              nothing_found page0 Hs eq_refl))).
Defined.
